(** * HemoDownloader: the packaging script [setup.py]

    The repository's one source file is a packaging script.  It binds the
    name [setup] by a guarded import (setuptools first, distutils.core in
    the handler of a bare [except:]) and then calls [setup] once with
    keyword arguments that are all literals.

    The script is embedded as a program in a small monad of Python
    statements: a statement runs in a world (the interpreter's module cache
    and everything outside the interpreter), records the calls the script
    makes to the installer tool, and completes normally or with an
    exception.  What the called tool does is not code of the script: it is
    a parameter of the run, free to read and change everything outside the
    interpreter and to raise. *)

From Stdlib Require Import String Ascii List NArith Bool.
From stdpp Require Import base option strings gmap.
Import ListNotations.

Local Open Scope string_scope.
Local Open Scope list_scope.

(** ** Exceptions

    A bare [except:] catches every [BaseException], so the model keeps
    exceptions that are not import failures apart from those that are. *)

Inductive exc : Type :=
  | ImportError
  | ModuleNotFoundError
  | KeyboardInterrupt
  | SystemExit
  | MemoryError
  | OtherException (cls : string).

(** What [except ImportError:] would catch: the class and its subclass. *)
Definition is_import_error (e : exc) : bool :=
  match e with
  | ImportError | ModuleNotFoundError => true
  | _ => false
  end.

Inductive completion (A : Type) : Type :=
  | Normal (a : A)
  | Raise (e : exc).

Arguments Normal {A} a.
Arguments Raise {A} e.

(** ** The two installer tools and the keyword arguments of [setup] *)

Inductive tool : Type :=
  | Setuptools
  | DistutilsCore.

Definition module_name (t : tool) : string :=
  match t with
  | Setuptools => "setuptools"
  | DistutilsCore => "distutils.core"
  end.

Record Kwargs : Type := mkKwargs
  { name : string;
    version : string;
    description : string;
    author : string;
    author_email : string;
    install_requires : list string }.

(** One call of the function [setup] imported from a tool, with its
    keyword arguments. *)
Record SetupCall : Type := mkSetupCall
  { callee : tool;
    kwargs : Kwargs }.

(** The literals of lines 24 to 29.  The description holds the sign
    U+00AE, here as the two bytes of its UTF-8 encoding. *)
Definition descriptor : Kwargs :=
  {| name := "HemoDownloader.pyw";
     version := "1.2";
     description :=
       "A GUI utility for downloading data from HemoCue® HbA1c devices";
     author := "Martin Rune Hassan Hansen";
     author_email := "martinrunehassanhansen@ph.au.dk";
     install_requires :=
       ["pyserial>=3.4"; "xlsxwriter>=1.1.8"; "xlwt>=1.3.0"] |}.

(** ** Worlds and statements *)

(** What the import system does with a module that is not yet cached. *)
Inductive load : Type :=
  | Loads
  | Fails (e : exc).

Definition Finder : Type := string -> load.

Section Script.

(** Everything outside the interpreter (files, environment variables,
    the command line): the script has no statement that names it, the
    tools it calls read and change it. *)
Context {Ext : Type}.

Record World : Type := mkWorld
  { sys_modules : gset string;
    external : Ext }.

(** What the [setup] of each tool does when it is called with keyword
    arguments: it reads the outside, leaves it changed or not, and returns
    or raises.  The modules a tool imports for itself are not followed:
    the script looks in the cache for its two modules only. *)
Definition Tools : Type := tool -> Kwargs -> Ext -> completion unit * Ext.

(** A statement: from a world to a completion, the calls to [setup]
    made on the way, and the world left behind. *)
Definition Py (A : Type) : Type :=
  World -> completion A * list SetupCall * World.

Definition ret {A} (a : A) : Py A := fun w => (Normal a, [], w).

Definition bind {A B} (m : Py A) (f : A -> Py B) : Py B :=
  fun w =>
    match m w with
    | (Normal a, ev, w') =>
        let '(c, ev', w'') := f a w' in (c, ev ++ ev', w'')
    | (Raise e, ev, w') => (Raise e, ev, w')
    end.

(** [try: body / except: handler], the handler without a class. *)
Definition try_except {A} (body handler : Py A) : Py A :=
  fun w =>
    match body w with
    | (Normal a, ev, w') => (Normal a, ev, w')
    | (Raise _, ev, w') =>
        let '(c, ev', w'') := handler w' in (c, ev ++ ev', w'')
    end.

(** [from <module of t> import setup]: a cached module is used as it
    is; otherwise the finder loads it, and caches it, or raises. *)
Definition import_setup (fd : Finder) (t : tool) : Py tool :=
  fun w =>
    if decide (module_name t ∈ sys_modules w) then (Normal t, [], w)
    else
      match fd (module_name t) with
      | Loads =>
          (Normal t, [],
           {| sys_modules := {[ module_name t ]} ∪ sys_modules w;
              external := external w |})
      | Fails e => (Raise e, [], w)
      end.

(** The call [setup(...)]: the script's call is recorded, and the tool
    runs on the outside; the statement completes as the tool does and
    leaves the outside as the tool leaves it. *)
Definition call_setup (tl : Tools) (f : tool) (kw : Kwargs) : Py unit :=
  fun w =>
    (fst (tl f kw (external w)),
     [ {| callee := f; kwargs := kw |} ],
     {| sys_modules := sys_modules w;
        external := snd (tl f kw (external w)) |}).

(** Lines 19 to 30. *)
Definition setup_py (tl : Tools) (fd : Finder) : Py unit :=
  bind
    (try_except (import_setup fd Setuptools)
                (import_setup fd DistutilsCore))
    (fun setup => call_setup tl setup descriptor).

Definition completion_of {A} (r : completion A * list SetupCall * World)
  : completion A := fst (fst r).
Definition calls_of {A} (r : completion A * list SetupCall * World)
  : list SetupCall := snd (fst r).
Definition world_of {A} (r : completion A * list SetupCall * World)
  : World := snd r.

End Script.

Arguments World : clear implicits.
Arguments Tools : clear implicits.
Arguments Py : clear implicits.

(** ** Reading a requirement string

    The elements of [install_requires] are requirement strings.  The
    installer reads each as a project name, a comparison operator and a
    version; a version as the dot-separated numbers of its release
    segment.  The strings of the script use nothing else of the syntax, so
    nothing else is read here: any other string has no reading. *)

Inductive cmp_op : Type :=
  | OpGe       (* >= *)
  | OpLe       (* <= *)
  | OpEq       (* == *)
  | OpNe       (* != *)
  | OpCompat   (* ~= *)
  | OpGt       (* >  *)
  | OpLt.      (* <  *)

Record Requirement : Type := mkRequirement
  { req_name : string;
    req_op : cmp_op;
    req_version : string }.

Definition in_range (lo hi : N) (c : ascii) : bool :=
  let n := N_of_ascii c in (lo <=? n)%N && (n <=? hi)%N.

Definition is_digit (c : ascii) : bool := in_range 48 57 c.

Definition is_name_char (c : ascii) : bool :=
  in_range 65 90 c || in_range 97 122 c || is_digit c
  || Ascii.eqb c "-" || Ascii.eqb c "_" || Ascii.eqb c ".".

(** The longest prefix of characters that satisfy [p], and the rest. *)
Fixpoint span (p : ascii -> bool) (s : string) : string * string :=
  match s with
  | EmptyString => (EmptyString, EmptyString)
  | String c s' =>
      if p c then let '(a, b) := span p s' in (String c a, b)
      else (EmptyString, s)
  end.

Definition parse_op (s : string) : option (cmp_op * string) :=
  match s with
  | String ">" (String "=" r) => Some (OpGe, r)
  | String "<" (String "=" r) => Some (OpLe, r)
  | String "=" (String "=" r) => Some (OpEq, r)
  | String "!" (String "=" r) => Some (OpNe, r)
  | String "~" (String "=" r) => Some (OpCompat, r)
  | String ">" r => Some (OpGt, r)
  | String "<" r => Some (OpLt, r)
  | _ => None
  end.

Definition parse_requirement (s : string) : option Requirement :=
  let '(n, rest) := span is_name_char s in
  match n, parse_op rest with
  | String _ _, Some (op, v) =>
      Some {| req_name := n; req_op := op; req_version := v |}
  | _, _ => None
  end.

(** The pieces of [s] between dots, as [s.split('.')] gives them. *)
Fixpoint split_dot (s : string) : list string :=
  match s with
  | EmptyString => [EmptyString]
  | String c s' =>
      if Ascii.eqb c "." then EmptyString :: split_dot s'
      else
        match split_dot s' with
        | piece :: pieces => String c piece :: pieces
        | [] => [String c EmptyString]
        end
  end.

Fixpoint digits_to_N (acc : N) (s : string) : option N :=
  match s with
  | EmptyString => Some acc
  | String c s' =>
      if is_digit c then digits_to_N (10 * acc + (N_of_ascii c - 48))%N s'
      else None
  end.

Definition parse_component (s : string) : option N :=
  match s with
  | EmptyString => None
  | _ => digits_to_N 0%N s
  end.

Definition parse_version (s : string) : option (list N) :=
  mapM parse_component (split_dot s).

(** Precedence of release segments: number by number from the left, the
    shorter one padded with zeros. *)
Fixpoint version_cmp (a b : list N) : comparison :=
  match a, b with
  | [], [] => Eq
  | _ :: _, [] => if forallb (N.eqb 0) a then Eq else Gt
  | [], _ :: _ => if forallb (N.eqb 0) b then Eq else Lt
  | x :: a', y :: b' =>
      match (x ?= y)%N with
      | Eq => version_cmp a' b'
      | c => c
      end
  end.

(** Whether a candidate version meets a requirement whose version reads
    as [floor]; [~=] is left out, it is not a comparison of two versions. *)
Definition satisfies (op : cmp_op) (floor candidate : list N) : option bool :=
  match op, version_cmp candidate floor with
  | OpGe, c => Some (match c with Lt => false | _ => true end)
  | OpLe, c => Some (match c with Gt => false | _ => true end)
  | OpEq, c => Some (match c with Eq => true | _ => false end)
  | OpNe, c => Some (match c with Eq => false | _ => true end)
  | OpGt, c => Some (match c with Gt => true | _ => false end)
  | OpLt, c => Some (match c with Lt => true | _ => false end)
  | OpCompat, _ => None
  end.

(** Name, operator and version string of each, when all of them read. *)
Definition read_requirements (k : Kwargs) : option (list Requirement) :=
  mapM parse_requirement (install_requires k).

(** ** Concrete environments, for examples *)

(** Both tools installed. *)
Definition fd_both : Finder := fun _ => Loads.

(** No setuptools, distutils in the standard library. *)
Definition fd_distutils_only : Finder :=
  fun m => if String.eqb m "setuptools" then Fails ModuleNotFoundError
           else Loads.


(** Importing setuptools is interrupted from the keyboard. *)
Definition fd_interrupted : Finder :=
  fun m => if String.eqb m "setuptools" then Fails KeyboardInterrupt
           else Loads.

(** Importing setuptools is interrupted from the keyboard, and there is
    no distutils. *)
Definition fd_interrupted_none : Finder :=
  fun m => if String.eqb m "setuptools" then Fails KeyboardInterrupt
           else Fails ModuleNotFoundError.


(** An outside for examples: the command line after the script's name,
    and the distributions installed, each with its requirements. *)
Record Site : Type := mkSite
  { argv : list string;
    installed : list (string * list string) }.

(** Tools for examples, after the two real ones.  Without a command, or
    with one it does not know, [setup] ends the interpreter.  With
    [install] it records the distribution: setuptools with the
    requirements it was given, distutils, which has no option
    [install_requires], without them. *)
Definition tools_cmdline : Tools Site :=
  fun t kw site =>
    match argv site with
    | cmd :: _ =>
        if String.eqb cmd "install" then
          (Normal tt,
           {| argv := argv site;
              installed :=
                (name kw,
                 match t with
                 | Setuptools => install_requires kw
                 | DistutilsCore => []
                 end) :: installed site |})
        else (Raise SystemExit, site)
    | [] => (Raise SystemExit, site)
    end.

(** Tools whose [setup] returns and touches nothing. *)
Definition tools_inert {Ext : Type} : Tools Ext :=
  fun _ _ x => (Normal tt, x).

(** A fresh interpreter, nothing imported yet, started as
    [python setup.py install] where nothing is installed. *)
Definition fresh : World Site :=
  {| sys_modules := ∅;
     external := {| argv := ["install"]; installed := [] |} |}.

(** The same, started as [python setup.py], without a command. *)
Definition fresh_bare : World Site :=
  {| sys_modules := ∅;
     external := {| argv := []; installed := [] |} |}.

(** ** The notions the claims are stated with *)

(** The three requirements, as they read. *)
Definition req_pyserial : Requirement :=
  {| req_name := "pyserial"; req_op := OpGe; req_version := "3.4" |}.
Definition req_xlsxwriter : Requirement :=
  {| req_name := "xlsxwriter"; req_op := OpGe; req_version := "1.1.8" |}.
Definition req_xlwt : Requirement :=
  {| req_name := "xlwt"; req_op := OpGe; req_version := "1.3.0" |}.

(** The numbers of the version a requirement string states. *)
Definition version_of_requirement (s : string) : option (list N) :=
  match parse_requirement s with
  | Some r => parse_version (req_version r)
  | None => None
  end.

(** The reading of C3 in the specification's words: a requirement whose
    version has three numbers. *)
Definition three_components (s : string) : Prop :=
  exists r a b c,
    parse_requirement s = Some r
    /\ parse_version (req_version r) = Some [a; b; c].

(** Major, minor and patch of a version of two or three numbers: a
    version of two numbers is padded with a zero patch. *)
Definition as_triple (v : list N) : option (N * N * N) :=
  match v with
  | [a; b] => Some (a, b, 0%N)
  | [a; b; c] => Some (a, b, c)
  | _ => None
  end.

(** Precedence of (major, minor, patch): the first difference decides. *)
Definition triple_cmp (s t : N * N * N) : comparison :=
  let '(a, b, c) := s in
  let '(d, e, f) := t in
  match (a ?= d)%N with
  | Eq => match (b ?= e)%N with
          | Eq => (c ?= f)%N
          | r => r
          end
  | r => r
  end.

(** What holds of each requirement of the script instead: the version
    has two or three numbers, and against every version of two or three
    numbers its precedence is that of its (major, minor, patch), the patch
    being zero when it has two numbers. *)
Definition release_of_two_or_three (s : string) : Prop :=
  exists v t,
    version_of_requirement s = Some v
    /\ (length v = 2 \/ length v = 3)
    /\ as_triple v = Some t
    /\ (forall u tu, as_triple u = Some tu ->
                     version_cmp v u = triple_cmp t tu
                     /\ version_cmp u v = triple_cmp tu t).

(** A requirement that states a floor: it reads with the operator [>=],
    not with [==]; its version reads as [v]; the floor itself is accepted,
    and so is a later version, which an exact pin would refuse. *)
Definition is_floor (s : string) : Prop :=
  exists r v,
    parse_requirement s = Some r
    /\ req_op r = OpGe
    /\ req_op r <> OpEq
    /\ parse_version (req_version r) = Some v
    /\ satisfies (req_op r) v v = Some true
    /\ (exists later,
          version_cmp later v = Gt
          /\ satisfies (req_op r) v later = Some true
          /\ satisfies OpEq v later = Some false).


Definition importable {Ext : Type} (fd : Finder) (w : World Ext) (t : tool)
  : Prop :=
  completion_of (import_setup fd t w) = Normal t.

(** ** What one run of the script does *)

Section Run.

Context {Ext : Type}.
Implicit Types (tl : Tools Ext) (fd : Finder) (w : World Ext) (t : tool)
  (e : exc).

(** An import either binds the tool's [setup], leaving the module
    cached, or raises what the finder raised, leaving the world as it
    was.  It makes no call and never touches the outside. *)
Lemma import_setup_inv fd t w :
  (exists w', import_setup fd t w = (Normal t, [], w')
              /\ external w' = external w
              /\ module_name t ∈ sys_modules w'
              /\ (sys_modules w' = {[ module_name t ]} ∪ sys_modules w
                  \/ sys_modules w' = sys_modules w))
  \/ (exists e, import_setup fd t w = (Raise e, [], w)
               /\ (module_name t ∉ sys_modules w)
               /\ fd (module_name t) = Fails e).
Proof.
  unfold import_setup.
  destruct (decide (module_name t ∈ sys_modules w)) as [Hin | Hout].
  - left. exists w. repeat split; [assumption | right; reflexivity].
  - destruct (fd (module_name t)) as [ | e] eqn:Hfd.
    + left. eexists. repeat split; simpl; [set_solver | left; reflexivity].
    + right. exists e. repeat split; assumption.
Qed.

(** A module that is cached is imported again without a change. *)
Lemma import_setup_cached fd t w :
  module_name t ∈ sys_modules w ->
  import_setup fd t w = (Normal t, [], w).
Proof.
  intros Hin. unfold import_setup.
  destruct (decide (module_name t ∈ sys_modules w)); [reflexivity | contradiction].
Qed.

(** A failed import of setuptools fails again where the cache has gained
    at most distutils.core. *)
Lemma import_setup_fails_later fd t w w' e :
  import_setup fd t w = (Raise e, [], w) ->
  sys_modules w' = {[ module_name DistutilsCore ]} ∪ sys_modules w
  \/ sys_modules w' = sys_modules w ->
  t = Setuptools ->
  import_setup fd t w' = (Raise e, [], w').
Proof.
  intros Hfail Hw' ->.
  destruct (import_setup_inv fd Setuptools w)
    as [(w1 & H1 & _) | (e1 & H1 & Hout & Hfd)]; [congruence | ].
  assert (e1 = e) as -> by congruence.
  unfold import_setup.
  destruct (decide (module_name Setuptools ∈ sys_modules w')) as [Hin | _].
  - exfalso. destruct Hw' as [Hw' | Hw']; rewrite Hw' in Hin;
      [ | contradiction].
    apply elem_of_union in Hin as [Hin | Hin]; [ | contradiction].
    apply elem_of_singleton in Hin. discriminate Hin.
  - rewrite Hfd. reflexivity.
Qed.



(** The three ways through lines 19 to 30. *)
Lemma setup_py_first tl fd w w' :
  import_setup fd Setuptools w = (Normal Setuptools, [], w') ->
  setup_py tl fd w = call_setup tl Setuptools descriptor w'.
Proof.
  intros H. unfold setup_py, bind, try_except.
  rewrite H. reflexivity.
Qed.

Lemma setup_py_second tl fd w w' e :
  import_setup fd Setuptools w = (Raise e, [], w) ->
  import_setup fd DistutilsCore w = (Normal DistutilsCore, [], w') ->
  setup_py tl fd w = call_setup tl DistutilsCore descriptor w'.
Proof.
  intros H1 H2. unfold setup_py, bind, try_except.
  rewrite H1, H2. reflexivity.
Qed.

Lemma setup_py_neither tl fd w e1 e2 :
  import_setup fd Setuptools w = (Raise e1, [], w) ->
  import_setup fd DistutilsCore w = (Raise e2, [], w) ->
  setup_py tl fd w = (Raise e2, [], w).
Proof.
  intros H1 H2. unfold setup_py, bind, try_except.
  rewrite H1, H2. reflexivity.
Qed.

(** The script either calls the [setup] it bound, once, with the
    literals of the script, or ends with the exception of the second
    import and no call. *)
Lemma setup_py_inv tl fd w :
  (exists t w', setup_py tl fd w = call_setup tl t descriptor w'
                /\ external w' = external w
                /\ module_name t ∈ sys_modules w')
  \/ (exists e, setup_py tl fd w = (Raise e, [], w)).
Proof.
  destruct (import_setup_inv fd Setuptools w)
    as [(w1 & H1 & Hext & Hin & _) | (e1 & H1 & _)].
  - left. exists Setuptools, w1. rewrite (setup_py_first _ _ _ _ H1). auto.
  - destruct (import_setup_inv fd DistutilsCore w)
      as [(w2 & H2 & Hext & Hin & _) | (e2 & H2 & _)].
    + left. exists DistutilsCore, w2.
      rewrite (setup_py_second _ _ _ _ _ H1 H2). auto.
    + right. exists e2. apply (setup_py_neither _ _ _ _ _ H1 H2).
Qed.

(** Every call of a run passes the literals of the script. *)
Lemma calls_pass_descriptor tl fd w c :
  In c (calls_of (setup_py tl fd w)) -> kwargs c = descriptor.
Proof.
  destruct (setup_py_inv tl fd w) as [(t & w' & -> & _) | (e & ->)];
    unfold calls_of; simpl.
  - intros [<- | []]. reflexivity.
  - intros [].
Qed.

End Run.

(** ** Precedence of versions *)

Lemma version_cmp_refl (a : list N) : version_cmp a a = Eq.
Proof.
  induction a as [ | x a IH]; simpl; [reflexivity | ].
  rewrite N.compare_refl. exact IH.
Qed.

(** Swapping the two versions swaps the verdict: any two release segments
    are comparable, one way or the other. *)
Lemma version_cmp_antisym (a b : list N) :
  version_cmp a b = CompOpp (version_cmp b a).
Proof.
  revert b. induction a as [ | x a IH]; intros [ | y b]; cbn [version_cmp].
  - reflexivity.
  - destruct (forallb (N.eqb 0) (y :: b)); reflexivity.
  - destruct (forallb (N.eqb 0) (x :: a)); reflexivity.
  - rewrite (N.compare_antisym x y).
    destruct (x ?= y)%N; simpl; auto.
Qed.

(** Raising the first number gives a later version. *)
Lemma version_cmp_bump (x : N) (a : list N) :
  version_cmp (N.succ x :: a) (x :: a) = Gt.
Proof.
  simpl. destruct (N.succ x ?= x)%N eqn:H; [ | | reflexivity].
  - exfalso. apply N.compare_eq_iff in H. exact (N.neq_succ_diag_l x H).
  - exfalso. apply N.compare_lt_iff in H. exact (N.nlt_succ_diag_l x H).
Qed.

(** Between versions of two or three numbers, precedence is that of
    (major, minor, patch), a missing patch counting as zero. *)
Lemma version_cmp_triple (u v : list N) (tu tv : N * N * N) :
  as_triple u = Some tu ->
  as_triple v = Some tv ->
  version_cmp u v = triple_cmp tu tv.
Proof.
  destruct u as [ | a [ | b [ | c [ | ? ?]]]]; try discriminate;
    destruct v as [ | d [ | e [ | f [ | ? ?]]]]; try discriminate;
    intros [= <-] [= <-]; cbn [version_cmp triple_cmp];
    destruct (a ?= d)%N; try reflexivity;
    destruct (b ?= e)%N; try reflexivity.
  - destruct f; reflexivity.
  - destruct c; reflexivity.
  - destruct (c ?= f)%N; reflexivity.
Qed.

(** ** The claims *)

(** C1 (as the code has it).  Every call to [setup] that a run of the
    script makes passes the name "HemoDownloader.pyw", the file name of
    the application with its extension, and the version "1.2". *)
Theorem package_identity {Ext : Type} (tl : Tools Ext) (fd : Finder)
    (w : World Ext) (c : SetupCall) :
  In c (calls_of (setup_py tl fd w)) ->
  name (kwargs c) = "HemoDownloader.pyw" /\ version (kwargs c) = "1.2".
Proof.
  intros Hc. rewrite (calls_pass_descriptor tl fd w c Hc). split; reflexivity.
Qed.

Lemma package_identity_witness :
  In {| callee := Setuptools; kwargs := descriptor |}
     (calls_of (setup_py tools_cmdline fd_both fresh))
  /\ name descriptor = "HemoDownloader.pyw" /\ version descriptor = "1.2".
Proof.
  assert (H : In {| callee := Setuptools; kwargs := descriptor |}
                 (calls_of (setup_py tools_cmdline fd_both fresh)))
    by (vm_compute; left; reflexivity).
  split; [exact H | ].
  exact (package_identity tools_cmdline fd_both fresh _ H).
Defined.

(** C1 (as the specification words it) fails: with both tools installed,
    the run of a fresh interpreter makes a call, and the name it passes is
    not "HemoDownloader". *)
Lemma package_name_not_bare :
  ~ (forall c : SetupCall,
       In c (calls_of (setup_py tools_cmdline fd_both fresh)) ->
       name (kwargs c) = "HemoDownloader" /\ version (kwargs c) = "1.2").
Proof.
  intros H.
  destruct (H {| callee := Setuptools; kwargs := descriptor |}) as [Hn _].
  - vm_compute. left. reflexivity.
  - discriminate Hn.
Qed.

(** C2.  The dependency list passed by every call of a run reads as
    exactly three requirements: pyserial (serial port) from 3.4,
    xlsxwriter (spreadsheets) from 1.1.8 and xlwt (legacy spreadsheets)
    from 1.3.0, the versions reading as the numbers 3.4, 1.1.8 and
    1.3.0. *)
Theorem three_requirements {Ext : Type} (tl : Tools Ext) (fd : Finder)
    (w : World Ext) (c : SetupCall) :
  In c (calls_of (setup_py tl fd w)) ->
  length (install_requires (kwargs c)) = 3
  /\ read_requirements (kwargs c)
     = Some [req_pyserial; req_xlsxwriter; req_xlwt]
  /\ map (fun r => parse_version (req_version r))
         [req_pyserial; req_xlsxwriter; req_xlwt]
     = [Some [3; 4]; Some [1; 1; 8]; Some [1; 3; 0]]%N.
Proof.
  intros Hc. rewrite (calls_pass_descriptor tl fd w c Hc).
  repeat split; reflexivity.
Qed.

Lemma three_requirements_witness :
  In {| callee := DistutilsCore; kwargs := descriptor |}
     (calls_of (setup_py tools_cmdline fd_distutils_only fresh))
  /\ read_requirements descriptor
     = Some [req_pyserial; req_xlsxwriter; req_xlwt].
Proof.
  assert (H : In {| callee := DistutilsCore; kwargs := descriptor |}
                 (calls_of (setup_py tools_cmdline fd_distutils_only fresh)))
    by (vm_compute; left; reflexivity).
  split; [exact H | ].
  exact (proj1 (proj2
           (three_requirements tools_cmdline fd_distutils_only fresh _ H))).
Defined.

(** C3 (as the specification words it) fails: the version of the first
    requirement, "3.4", has two numbers, not three. *)
Lemma pyserial_version_has_two_components :
  ~ Forall three_components (install_requires descriptor).
Proof.
  intros H. apply Forall_inv in H.
  destruct H as (r & a & b & c & Hr & Hv).
  vm_compute in Hr. injection Hr as <-.
  vm_compute in Hv. discriminate Hv.
Qed.

(** C3 (as the code has it).  The versions of the three requirements
    parse as the numbers 3.4 (two numbers), 1.1.8 and 1.3.0 (three
    numbers each); as (major, minor, patch) they are 3.4.0, 1.1.8 and
    1.3.0, the version of two numbers padded with a zero; and each
    compares with every version of two or three numbers as its (major,
    minor, patch) does. *)
Theorem versions_parse_and_compare :
  map version_of_requirement (install_requires descriptor)
  = [Some [3; 4]; Some [1; 1; 8]; Some [1; 3; 0]]%N
  /\ map (fun s => version_of_requirement s ≫= as_triple)
         (install_requires descriptor)
     = [Some (3, 4, 0); Some (1, 1, 8); Some (1, 3, 0)]%N
  /\ Forall release_of_two_or_three (install_requires descriptor).
Proof.
  split; [reflexivity | split; [reflexivity | ]].
  constructor; [ | constructor; [ | constructor; [ | constructor]]].
  - exists [3; 4]%N, (3, 4, 0)%N.
    repeat split; [left; reflexivity | | ];
      apply version_cmp_triple; (assumption || reflexivity).
  - exists [1; 1; 8]%N, (1, 1, 8)%N.
    repeat split; [right; reflexivity | | ];
      apply version_cmp_triple; (assumption || reflexivity).
  - exists [1; 3; 0]%N, (1, 3, 0)%N.
    repeat split; [right; reflexivity | | ];
      apply version_cmp_triple; (assumption || reflexivity).
Qed.

Lemma floor_of_ge (s : string) (r : Requirement) (x : N) (v : list N) :
  parse_requirement s = Some r ->
  req_op r = OpGe ->
  parse_version (req_version r) = Some (x :: v) ->
  is_floor s.
Proof.
  intros Hr Hop Hv. exists r, (x :: v).
  repeat split; try assumption.
  - rewrite Hop. discriminate.
  - rewrite Hop. unfold satisfies. rewrite version_cmp_refl. reflexivity.
  - exists (N.succ x :: v). rewrite Hop. unfold satisfies.
    rewrite version_cmp_bump. repeat split.
Qed.

(** C5.  Every requirement of the script is a floor: its operator is
    [>=], and none is an exact pin. *)
Theorem requirements_are_floors :
  Forall is_floor (install_requires descriptor).
Proof.
  constructor; [ | constructor; [ | constructor; [ | constructor]]].
  - apply (floor_of_ge _ req_pyserial 3%N [4%N]); reflexivity.
  - apply (floor_of_ge _ req_xlsxwriter 1%N [1; 8]%N); reflexivity.
  - apply (floor_of_ge _ req_xlwt 1%N [3; 0]%N); reflexivity.
Qed.

(** C6.  In every call of a run, the name, version, description, author
    and author email are non-empty strings. *)
Theorem metadata_fields_nonempty {Ext : Type} (tl : Tools Ext)
    (fd : Finder) (w : World Ext) (c : SetupCall) :
  In c (calls_of (setup_py tl fd w)) ->
  name (kwargs c) <> ""
  /\ version (kwargs c) <> ""
  /\ description (kwargs c) <> ""
  /\ author (kwargs c) <> ""
  /\ author_email (kwargs c) <> "".
Proof.
  intros Hc. rewrite (calls_pass_descriptor tl fd w c Hc).
  repeat split; discriminate.
Qed.

Lemma metadata_fields_nonempty_witness :
  In {| callee := Setuptools; kwargs := descriptor |}
     (calls_of (setup_py tools_cmdline fd_both fresh))
  /\ description descriptor <> "".
Proof.
  assert (H : In {| callee := Setuptools; kwargs := descriptor |}
                 (calls_of (setup_py tools_cmdline fd_both fresh)))
    by (vm_compute; left; reflexivity).
  split; [exact H | ].
  exact (proj1 (proj2 (proj2
           (metadata_fields_nonempty tools_cmdline fd_both fresh _ H)))).
Defined.

(** C8.  The requirements of the script all read, and their project
    names are pairwise distinct. *)
Theorem requirement_names_distinct :
  exists rs,
    read_requirements descriptor = Some rs
    /\ List.NoDup (map req_name rs).
Proof.
  exists [req_pyserial; req_xlsxwriter; req_xlwt].
  split; [reflexivity | ].
  repeat constructor; simpl; intuition discriminate.
Qed.

(** Once a run has reached its call, a run in any world with the cache
    it left reaches the same call, and its imports change nothing. *)
Lemma setup_py_again {Ext : Type} (tl : Tools Ext) (fd : Finder)
    (w : World Ext) :
  (exists t w1,
      setup_py tl fd w = call_setup tl t descriptor w1
      /\ external w1 = external w
      /\ forall (tl2 : Tools Ext) (w2 : World Ext),
           sys_modules w2 = sys_modules w1 ->
           setup_py tl2 fd w2 = call_setup tl2 t descriptor w2)
  \/ (exists e, setup_py tl fd w = (Raise e, [], w)).
Proof.
  destruct (import_setup_inv fd Setuptools w)
    as [(w1 & H1 & Hx1 & Hin1 & _) | (e1 & H1 & _)].
  - left. exists Setuptools, w1.
    split; [apply (setup_py_first _ _ _ _ H1) | split; [exact Hx1 | ]].
    intros tl2 w2 Hm. apply setup_py_first.
    apply import_setup_cached. rewrite Hm. exact Hin1.
  - destruct (import_setup_inv fd DistutilsCore w)
      as [(w2 & H2 & Hx2 & Hin2 & Hshape) | (e2 & H2 & _)].
    + left. exists DistutilsCore, w2.
      split; [apply (setup_py_second _ _ _ _ _ H1 H2) | split; [exact Hx2 | ]].
      intros tl2 w3 Hm. apply (setup_py_second tl2 fd w3 w3 e1).
      * apply (import_setup_fails_later fd _ w w3 e1 H1);
          [rewrite Hm; exact Hshape | reflexivity].
      * apply import_setup_cached. rewrite Hm. exact Hin2.
    + right. exists e2. apply (setup_py_neither _ _ _ _ _ H1 H2).
Qed.




(** C7.  A second run, in the world the first run left, makes the same
    calls with the same keyword arguments, whatever the tools do, and
    leaves the module cache as it found it.  Where the tools return and
    touch nothing, it also completes as the first run did and leaves the
    whole world as it found it. *)
Theorem evaluation_idempotent {Ext : Type} (tl : Tools Ext) (fd : Finder)
    (w : World Ext) :
  calls_of (setup_py tl fd (world_of (setup_py tl fd w)))
  = calls_of (setup_py tl fd w)
  /\ sys_modules (world_of (setup_py tl fd (world_of (setup_py tl fd w))))
     = sys_modules (world_of (setup_py tl fd w))
  /\ completion_of
       (setup_py tools_inert fd (world_of (setup_py tools_inert fd w)))
     = completion_of (setup_py tools_inert fd w)
  /\ world_of
       (setup_py tools_inert fd (world_of (setup_py tools_inert fd w)))
     = world_of (setup_py tools_inert fd w).
Proof.
  split; [ | split].
  - destruct (setup_py_again tl fd w)
      as [(t & w1 & -> & _ & Hagain) | (e & He)].
    + rewrite (Hagain tl (world_of (call_setup tl t descriptor w1)) eq_refl).
      reflexivity.
    + rewrite He. unfold world_of at 1; simpl. rewrite He. reflexivity.
  - destruct (setup_py_again tl fd w)
      as [(t & w1 & -> & _ & Hagain) | (e & He)].
    + rewrite (Hagain tl (world_of (call_setup tl t descriptor w1)) eq_refl).
      reflexivity.
    + rewrite He. unfold world_of at 2; simpl. rewrite He. reflexivity.
  - destruct (setup_py_again tools_inert fd w)
      as [(t & w1 & -> & _ & Hagain) | (e & He)].
    + rewrite (Hagain tools_inert
                 (world_of (call_setup tools_inert t descriptor w1)) eq_refl).
      split; reflexivity.
    + rewrite He. unfold world_of at 1 3; simpl. rewrite He.
      split; reflexivity.
Qed.



(** C10.  Whatever exception the import of setuptools raises, an import
    error or any other, the handler runs: the script goes on as the
    import from distutils.core followed by the call. *)
Theorem bare_except_catches_all {Ext : Type} (tl : Tools Ext) (fd : Finder)
    (w : World Ext) (e : exc) :
  completion_of (import_setup fd Setuptools w) = Raise e ->
  setup_py tl fd w
  = bind (import_setup fd DistutilsCore)
         (fun setup => call_setup tl setup descriptor) w.
Proof.
  intros He.
  destruct (import_setup_inv fd Setuptools w)
    as [(w1 & H1 & _) | (e1 & H1 & _)];
    [rewrite H1 in He; discriminate He | ].
  unfold setup_py, bind, try_except. rewrite H1.
  destruct (import_setup fd DistutilsCore w) as [[[t | e2] ev] w2];
    reflexivity.
Qed.

Lemma bare_except_catches_all_witness :
  is_import_error KeyboardInterrupt = false
  /\ completion_of (import_setup fd_interrupted Setuptools fresh)
     = Raise KeyboardInterrupt
  /\ calls_of (setup_py tools_cmdline fd_interrupted fresh)
     = [ {| callee := DistutilsCore; kwargs := descriptor |} ].
Proof.
  assert (H : completion_of (import_setup fd_interrupted Setuptools fresh)
              = Raise KeyboardInterrupt) by reflexivity.
  split; [reflexivity | split; [exact H | ]].
  rewrite (bare_except_catches_all tools_cmdline fd_interrupted fresh
             KeyboardInterrupt H).
  reflexivity.
Defined.

(** ** Further properties of the guarded import and the call *)

(** X1.  When both imports raise, the run ends with the exception of the
    second import, the one from distutils.core; the exception of the
    first import is lost, and [setup] is not called. *)
Theorem both_imports_fail {Ext : Type} (tl : Tools Ext) (fd : Finder)
    (w : World Ext) (e1 e2 : exc) :
  completion_of (import_setup fd Setuptools w) = Raise e1 ->
  completion_of (import_setup fd DistutilsCore w) = Raise e2 ->
  completion_of (setup_py tl fd w) = Raise e2
  /\ calls_of (setup_py tl fd w) = [].
Proof.
  intros He1 He2.
  destruct (import_setup_inv fd Setuptools w)
    as [(w1 & H1 & _) | (e1' & H1 & _)];
    [rewrite H1 in He1; discriminate He1 | ].
  destruct (import_setup_inv fd DistutilsCore w)
    as [(w2 & H2 & _) | (e2' & H2 & _)];
    [rewrite H2 in He2; discriminate He2 | ].
  rewrite H2 in He2. injection He2 as ->.
  rewrite (setup_py_neither _ _ _ _ _ H1 H2). split; reflexivity.
Qed.

Lemma both_imports_fail_witness :
  completion_of (import_setup fd_interrupted_none Setuptools fresh)
  = Raise KeyboardInterrupt
  /\ completion_of (setup_py tools_cmdline fd_interrupted_none fresh)
     = Raise ModuleNotFoundError.
Proof.
  assert (H1 : completion_of
                 (import_setup fd_interrupted_none Setuptools fresh)
               = Raise KeyboardInterrupt) by reflexivity.
  assert (H2 : completion_of
                 (import_setup fd_interrupted_none DistutilsCore fresh)
               = Raise ModuleNotFoundError) by reflexivity.
  split; [exact H1 | ].
  exact (proj1 (both_imports_fail tools_cmdline fd_interrupted_none fresh
                  _ _ H1 H2)).
Defined.



(** X3.  A run reaches its call to [setup] exactly when one of the two
    tools can be imported, and it completes normally exactly when it has
    made its call and that call returned. *)
Theorem run_calls_iff_tool_importable {Ext : Type} (tl : Tools Ext)
    (fd : Finder) (w : World Ext) :
  (calls_of (setup_py tl fd w) <> []
   <-> importable fd w Setuptools \/ importable fd w DistutilsCore)
  /\ (completion_of (setup_py tl fd w) = Normal tt
      <-> exists c, calls_of (setup_py tl fd w) = [c]
                    /\ fst (tl (callee c) (kwargs c) (external w))
                       = Normal tt).
Proof.
  unfold importable.
  destruct (import_setup_inv fd Setuptools w)
    as [(w1 & H1 & Hx1 & _) | (e1 & H1 & _)].
  - rewrite (setup_py_first _ _ _ _ H1), H1.
    unfold call_setup, completion_of, calls_of; simpl. rewrite Hx1.
    split; split.
    + intros _. left. reflexivity.
    + intros _. discriminate.
    + intros H. eexists. split; [reflexivity | exact H].
    + intros (c & [= <-] & H). exact H.
  - destruct (import_setup_inv fd DistutilsCore w)
      as [(w2 & H2 & Hx2 & _) | (e2 & H2 & _)].
    + rewrite (setup_py_second _ _ _ _ _ H1 H2), H2.
      unfold call_setup, completion_of, calls_of; simpl. rewrite Hx2.
      split; split.
      * intros _. right. reflexivity.
      * intros _. discriminate.
      * intros H. eexists. split; [reflexivity | exact H].
      * intros (c & [= <-] & H). exact H.
    + rewrite (setup_py_neither _ _ _ _ _ H1 H2), H1, H2.
      unfold completion_of, calls_of; simpl.
      split; split.
      * intros H. contradiction H. reflexivity.
      * intros [H | H]; discriminate H.
      * discriminate.
      * intros (c & H & _). discriminate H.
Qed.

Lemma run_calls_iff_tool_importable_witness :
  importable fd_distutils_only fresh_bare DistutilsCore
  /\ calls_of (setup_py tools_cmdline fd_distutils_only fresh_bare) <> []
  /\ completion_of (setup_py tools_cmdline fd_distutils_only fresh_bare)
     = Raise SystemExit.
Proof.
  assert (Hd : importable fd_distutils_only fresh_bare DistutilsCore)
    by reflexivity.
  split; [exact Hd | split; [ | reflexivity]].
  exact (proj2 (proj1 (run_calls_iff_tool_importable tools_cmdline
                         fd_distutils_only fresh_bare))
               (or_intror Hd)).
Defined.

(** X4.  The script calls the [setup] of distutils.core only after its
    import of setuptools has raised and its import of distutils.core has
    bound the name; that call is then the only call the script makes. *)
Theorem distutils_called_only_after_failure {Ext : Type} (tl : Tools Ext)
    (fd : Finder) (w : World Ext) (c : SetupCall) :
  In c (calls_of (setup_py tl fd w)) ->
  callee c = DistutilsCore ->
  (exists e, completion_of (import_setup fd Setuptools w) = Raise e)
  /\ importable fd w DistutilsCore
  /\ calls_of (setup_py tl fd w) = [c].
Proof.
  unfold importable.
  destruct (import_setup_inv fd Setuptools w)
    as [(w1 & H1 & _) | (e1 & H1 & _)].
  - rewrite (setup_py_first _ _ _ _ H1). unfold calls_of; simpl.
    intros [<- | []] Hc. discriminate Hc.
  - destruct (import_setup_inv fd DistutilsCore w)
      as [(w2 & H2 & _) | (e2 & H2 & _)].
    + rewrite (setup_py_second _ _ _ _ _ H1 H2), H1, H2.
      unfold calls_of; simpl.
      intros [<- | []] _. repeat split. exists e1. reflexivity.
    + rewrite (setup_py_neither _ _ _ _ _ H1 H2). unfold calls_of; simpl.
      intros [].
Qed.

Lemma distutils_called_only_after_failure_witness :
  In {| callee := DistutilsCore; kwargs := descriptor |}
     (calls_of (setup_py tools_cmdline fd_interrupted fresh))
  /\ exists e,
       completion_of (import_setup fd_interrupted Setuptools fresh)
       = Raise e.
Proof.
  assert (H : In {| callee := DistutilsCore; kwargs := descriptor |}
                 (calls_of (setup_py tools_cmdline fd_interrupted fresh)))
    by (vm_compute; left; reflexivity).
  split; [exact H | ].
  exact (proj1 (distutils_called_only_after_failure
                  tools_cmdline fd_interrupted fresh _ H eq_refl)).
Defined.
